(** * Orchestration core of the T5 model of rust-bert (src/t5/t5_model.rs)

    Shallow embedding of [T5Model::forward_t], [T5ForConditionalGeneration]
    ([new], [forward_t], [encode]) and the [LMHeadModel] implementation of
    [T5ForConditionalGeneration].  The numeric backend (tch / libtorch) and
    the [T5Stack] of [crate::t5::encoder] are opaque: every theorem below is
    quantified over them.  A panic of the Rust code ([unwrap] on an [Err] or a
    [None], a failing tch operation) is an explicit outcome of the monad
    [M], which also records the tensor computations performed, in order. *)

From Stdlib Require Import String List ZArith.
Import ListNotations.
Open Scope string_scope.

(** ** Rust prelude *)

Inductive result (A E : Type) : Type :=
| Ok (a : A)
| Err (e : E).
Arguments Ok {A E} a.
Arguments Err {A E} e.

(** [crate::RustBertError] *)
Inductive RustBertError : Type :=
| FileDownloadError (msg : string)
| IOError (msg : string)
| TchError (msg : string)
| ValueError (msg : string)
| InvalidConfigurationError (msg : string)
| TokenizerError (msg : string).

(** ** The numeric backend (tch), opaque.
    [f_linear x w b] is libtorch's [linear]: [x · wᵀ (+ b)];
    [f_mul_scalar x s] is [x * s] for an [f64] scalar.  Both may fail
    (shape mismatch); the infallible tch wrappers [Tensor::linear] and
    [Mul<f64> for Tensor] unwrap that failure, i.e. panic. *)
Class TchBackend := {
  Tensor : Type;
  f64 : Type;
  f_linear : Tensor -> Tensor -> option Tensor -> result Tensor string;
  f_mul_scalar : Tensor -> f64 -> result Tensor string;
  (** [x as f64] for an [i64] *)
  i64_as_f64 : Z -> f64;
  (** [f64::powf] *)
  powf : f64 -> f64 -> f64;
  (** the literal [-0.5] *)
  f64_neg_half : f64
}.

(** ** Execution monad: trace of tensor computations, then a value or a panic *)

Inductive Event : Type :=
| EncoderForward
| DecoderForward
| Linear
| MulScalar.

Inductive Panic : Type :=
| UnwrapErr (e : RustBertError)   (** [Result::unwrap] on [Err e] *)
| UnwrapNone                      (** [Option::unwrap] on [None] *)
| TchPanic (msg : string).        (** a failing tch operation *)

Inductive Exec (A : Type) : Type :=
| Done (a : A)
| Panicked (p : Panic).
Arguments Done {A} a.
Arguments Panicked {A} p.

Definition M (A : Type) : Type := (list Event * Exec A)%type.

Definition ret {A} (a : A) : M A := ([], Done a).

Definition bind {A B} (m : M A) (k : A -> M B) : M B :=
  match m with
  | (tr, Done a) => let '(tr', r) := k a in ((tr ++ tr')%list, r)
  | (tr, Panicked p) => (tr, Panicked p)
  end.

Notation "x <- m ;; k" := (bind m (fun x => k))
  (at level 61, m at next level, right associativity).

Definition trace {A} (m : M A) : list Event := fst m.
Definition outcome {A} (m : M A) : Exec A := snd m.

Definition unwrap {A} (r : result A RustBertError) : M A :=
  match r with
  | Ok a => ret a
  | Err e => ([], Panicked (UnwrapErr e))
  end.

Definition option_unwrap {A} (o : option A) : M A :=
  match o with
  | Some a => ret a
  | None => ([], Panicked UnwrapNone)
  end.

Definition exec_map {A B} (f : A -> B) (e : Exec A) : Exec B :=
  match e with
  | Done a => Done (f a)
  | Panicked p => Panicked p
  end.

Definition count_event (ev : Event) (tr : list Event) : nat :=
  length (filter (fun e => match e, ev with
                           | EncoderForward, EncoderForward
                           | DecoderForward, DecoderForward
                           | Linear, Linear
                           | MulScalar, MulScalar => true
                           | _, _ => false end) tr).

Section T5.

Context `{TchBackend}.

(** [crate::t5::attention::LayerState]: opaque cache entry. *)
Variable LayerState : Type.

Definition LayerCache : Type := list (option LayerState * option LayerState).

(** [tch::nn::Embedding]: its weight matrix [ws]. *)
Record Embedding : Type := mkEmbedding { ws : Tensor }.

(** [crate::t5::encoder::T5StackOutput] *)
Record T5StackOutput : Type := mkT5StackOutput {
  hidden_state : Tensor;
  all_hidden_states : option (list Tensor);
  all_attentions : option (list Tensor);
  next_cache : option LayerCache
}.

(** [crate::t5::encoder::T5Stack] and its [forward_t]
    (input_ids, attention_mask, encoder_hidden_states, encoder_attention_mask,
    input_embeds, embeddings, old_layer_states, train): opaque, any function. *)
Variable T5Stack : Type.
Variable T5Stack_forward_t :
  T5Stack -> option Tensor -> option Tensor -> option Tensor -> option Tensor ->
  option Tensor -> Embedding -> option LayerCache -> bool ->
  result T5StackOutput RustBertError.

(** ** tch calls as they occur in the source *)

(** [x.linear::<Tensor>(w, None)] *)
Definition linear (x w : Tensor) : M Tensor :=
  match f_linear x w None with
  | Ok y => ([Linear], Done y)
  | Err msg => ([Linear], Panicked (TchPanic msg))
  end.

(** [x * s] with [s : f64] *)
Definition mul_f64 (x : Tensor) (s : f64) : M Tensor :=
  match f_mul_scalar x s with
  | Ok y => ([MulScalar], Done y)
  | Err msg => ([MulScalar], Panicked (TchPanic msg))
  end.

(** [stack.forward_t(...).unwrap()], [ev] tags encoder or decoder use. *)
Definition stack_forward_unwrap (ev : Event) (s : T5Stack)
    (input_ids attention_mask encoder_hidden_states encoder_attention_mask
     input_embeds : option Tensor) (embeddings : Embedding)
    (old_layer_states : option LayerCache) (train : bool) : M T5StackOutput :=
  bind ([ev], Done tt) (fun _ =>
    unwrap (T5Stack_forward_t s input_ids attention_mask encoder_hidden_states
              encoder_attention_mask input_embeds embeddings old_layer_states train)).

(** ** [T5Model] *)

Record T5Model : Type := mkT5Model {
  encoder : T5Stack;
  decoder : T5Stack;
  embeddings : Embedding
}.

Record T5ModelOutput : Type := mkT5ModelOutput {
  decoder_output : Tensor;
  encoder_hidden_state : option Tensor;
  next_cache_out : option LayerCache;
  all_decoder_hidden_states : option (list Tensor);
  all_decoder_attentions : option (list Tensor);
  all_encoder_hidden_states : option (list Tensor);
  all_encoder_attentions : option (list Tensor)
}.

(** [T5Model::forward_t] *)
Definition T5Model_forward_t (self : T5Model)
    (input_ids attention_mask encoder_outputs decoder_input_ids
     decoder_attention_mask input_embeds decoder_input_embeds : option Tensor)
    (old_layer_states : option LayerCache) (train : bool) : M T5ModelOutput :=
  calc_encoder_outputs <-
    (match encoder_outputs with
     | None =>
         o <- stack_forward_unwrap EncoderForward self.(encoder) input_ids
                attention_mask None None input_embeds self.(embeddings) None train ;;
         ret (Some o)
     | Some _ => ret None
     end) ;;
  let '(calc_hidden_states, all_encoder_hidden_states0, all_encoder_attentions0) :=
    match calc_encoder_outputs with
    | Some o => (Some o.(hidden_state), o.(all_hidden_states), o.(all_attentions))
    | None => (None, None, None)
    end in
  encoder_output <-
    (match encoder_outputs with
     | Some e => ret e
     | None => option_unwrap calc_hidden_states
     end) ;;
  dec <- stack_forward_unwrap DecoderForward self.(decoder) decoder_input_ids
           decoder_attention_mask (Some encoder_output) attention_mask
           decoder_input_embeds self.(embeddings) old_layer_states train ;;
  ret {| decoder_output := dec.(hidden_state);
         encoder_hidden_state := calc_hidden_states;
         next_cache_out := dec.(next_cache);
         all_decoder_hidden_states := dec.(all_hidden_states);
         all_decoder_attentions := dec.(all_attentions);
         all_encoder_hidden_states := all_encoder_hidden_states0;
         all_encoder_attentions := all_encoder_attentions0 |}.

(** ** [T5Config]: the fields read by the model ([task_specific_params] omitted). *)
Record T5Config : Type := mkT5Config {
  dropout_rate : f64;
  d_model : Z;
  d_ff : Z;
  d_kv : Z;
  decoder_start_token_id : option Z;
  eos_token_id : option Z;
  initializer_factor : f64;
  is_encoder_decoder : option bool;
  layer_norm_epsilon : f64;
  n_positions : Z;
  num_heads : Z;
  num_layers : Z;
  output_past : option bool;
  pad_token_id : option Z;
  relative_attention_num_buckets : Z;
  vocab_size : Z
}.

(** ** [T5ForConditionalGeneration] *)

Record T5ForConditionalGeneration : Type := mkT5ForConditionalGeneration {
  base_model : T5Model;
  model_dim : f64
}.

(** [T5ForConditionalGeneration::new]; [base] is the [T5Model::new] built on
    the same variable-store path and configuration. *)
Definition T5ForConditionalGeneration_new (config : T5Config) (base : T5Model)
    : T5ForConditionalGeneration :=
  {| base_model := base; model_dim := i64_as_f64 config.(d_model) |}.

(** [T5ForConditionalGeneration::forward_t] *)
Definition T5ForConditionalGeneration_forward_t (self : T5ForConditionalGeneration)
    (input_ids attention_mask encoder_outputs decoder_input_ids
     decoder_attention_mask input_embeds decoder_input_embeds : option Tensor)
    (old_layer_states : option LayerCache) (train : bool) : M T5ModelOutput :=
  base_model_output <- T5Model_forward_t self.(base_model) input_ids attention_mask
                         encoder_outputs decoder_input_ids decoder_attention_mask
                         input_embeds decoder_input_embeds old_layer_states train ;;
  l <- linear base_model_output.(decoder_output) self.(base_model).(embeddings).(ws) ;;
  lm_logits <- mul_f64 l (powf self.(model_dim) f64_neg_half) ;;
  ret {| decoder_output := lm_logits;
         encoder_hidden_state := base_model_output.(encoder_hidden_state);
         next_cache_out := base_model_output.(next_cache_out);
         all_decoder_hidden_states := base_model_output.(all_decoder_hidden_states);
         all_decoder_attentions := base_model_output.(all_decoder_attentions);
         all_encoder_hidden_states := base_model_output.(all_encoder_hidden_states);
         all_encoder_attentions := base_model_output.(all_encoder_attentions) |}.

(** [T5ForConditionalGeneration::encode] *)
Definition T5ForConditionalGeneration_encode (self : T5ForConditionalGeneration)
    (input_ids : Tensor) (attention_mask : option Tensor) : M Tensor :=
  o <- stack_forward_unwrap EncoderForward self.(base_model).(encoder)
         (Some input_ids) attention_mask None None None
         self.(base_model).(embeddings) None false ;;
  ret o.(hidden_state).

(** ** The generation interface of [pipelines::generation_utils] *)

(** The payloads of the caches of the other models. *)
Variable BartLayerState : Type.

(** [Cache], the cache enum of [pipelines::generation_utils] (outside this
    file): one variant per model family, and [None]. *)
Inductive Cache : Type :=
| GPT2Cache (c : option (list Tensor))
| BARTCache (c : option (list (option BartLayerState * option BartLayerState)))
| T5Cache (c : option LayerCache)
| Cache_None.

Record LMModelOutput : Type := mkLMModelOutput {
  lm_logits : Tensor;
  cache : Cache
}.

(** [<T5ForConditionalGeneration as LMHeadModel>::forward_t] *)
Definition LMHeadModel_forward_t (self : T5ForConditionalGeneration)
    (input_ids : option Tensor) (cache0 : Cache) (attention_mask : option Tensor)
    (_token_type_ids _position_ids _input_embeds : option Tensor)
    (encoder_outputs : option Tensor) (decoder_input_ids : option Tensor)
    (train : bool) : M (result LMModelOutput RustBertError) :=
  match
    match cache0 with
    | T5Cache cached_layer_states =>
        Some (T5Model_forward_t self.(base_model) input_ids attention_mask
                encoder_outputs decoder_input_ids None None None
                cached_layer_states train)
    | Cache_None =>
        Some (T5Model_forward_t self.(base_model) input_ids attention_mask
                encoder_outputs decoder_input_ids None None None None train)
    | _ => None
    end
  with
  | None => ret (Err (ValueError "Cache not compatible with T5 Model"))
  | Some run =>
      base_model_output <- run ;;
      l <- linear base_model_output.(decoder_output)
             self.(base_model).(embeddings).(ws) ;;
      lm_logits0 <- mul_f64 l (powf self.(model_dim) f64_neg_half) ;;
      ret (Ok {| lm_logits := lm_logits0;
                 cache := T5Cache base_model_output.(next_cache_out) |})
  end.

(** The generation-adapter view of a [T5ModelOutput]: its decoder output as
    the logits and its next cache wrapped in [Cache::T5Cache]. *)
Definition lm_view (o : T5ModelOutput) : result LMModelOutput RustBertError :=
  Ok {| lm_logits := o.(decoder_output); cache := T5Cache o.(next_cache_out) |}.

End T5.

(** Record parameters are implicit in projections. *)
Arguments hidden_state {_ _} _.
Arguments all_hidden_states {_ _} _.
Arguments all_attentions {_ _} _.
Arguments next_cache {_ _} _.
Arguments encoder {_ _} _.
Arguments decoder {_ _} _.
Arguments embeddings {_ _} _.
Arguments decoder_output {_ _} _.
Arguments encoder_hidden_state {_ _} _.
Arguments next_cache_out {_ _} _.
Arguments all_decoder_hidden_states {_ _} _.
Arguments all_decoder_attentions {_ _} _.
Arguments all_encoder_hidden_states {_ _} _.
Arguments all_encoder_attentions {_ _} _.
Arguments base_model {_ _} _.
Arguments model_dim {_ _} _.
Arguments lm_logits {_ _ _} _.
Arguments cache {_ _ _} _.

(** * A toy instance: integers as tensors, a stack that fails without inputs *)

Module Toy.

#[export] Instance backend : TchBackend := {|
  Tensor := Z;
  f64 := Z;
  f_linear x w b := Ok (x * w + match b with Some c => c | None => 0 end)%Z;
  f_mul_scalar x s := Ok (x * s)%Z;
  i64_as_f64 z := z;
  powf a b := (a * b)%Z;
  f64_neg_half := (-1)%Z
|}.

(** The stack, [true] for the decoder: fails when neither ids nor embeddings
    are given, as [T5Stack::forward_t] does. *)
Definition stack_forward (is_decoder : bool)
    (input_ids _attention_mask encoder_hidden_states _encoder_attention_mask
     input_embeds : option Z) (_embeddings : Embedding)
    (_old : option (LayerCache unit)) (_train : bool)
    : result (T5StackOutput unit) RustBertError :=
  match input_ids, input_embeds with
  | None, None => Err (ValueError "You have to specify either input_ids or input_embeds")
  | Some x, _ | None, Some x =>
      Ok (mkT5StackOutput unit
            (x + match encoder_hidden_states with Some e => e | None => 0 end)%Z
            None None (if is_decoder then Some [(None, None)] else None))
  end.

Definition base : T5Model bool :=
  {| encoder := false; decoder := true; embeddings := {| ws := 2%Z |} |}.

Definition config : T5Config :=
  {| dropout_rate := 0; d_model := 3; d_ff := 4; d_kv := 2;
     decoder_start_token_id := Some 0; eos_token_id := Some 1;
     initializer_factor := 1; is_encoder_decoder := Some true;
     layer_norm_epsilon := 0; n_positions := 16; num_heads := 2;
     num_layers := 1; output_past := Some true; pad_token_id := Some 0;
     relative_attention_num_buckets := 8; vocab_size := 32 |}%Z.

Definition model : T5ForConditionalGeneration bool :=
  T5ForConditionalGeneration_new bool config base.

(** Output of the conditional-generation head on source [5], target [7]:
    encoder state [5], decoder state [5 + 7 = 12], logits [12 * 2 * (3 * -1)]. *)
Definition head_out : T5ModelOutput unit :=
  {| decoder_output := (-72)%Z; encoder_hidden_state := Some 5%Z;
     next_cache_out := Some [(None, None)];
     all_decoder_hidden_states := None; all_decoder_attentions := None;
     all_encoder_hidden_states := None; all_encoder_attentions := None |}.

Definition base_out : T5ModelOutput unit :=
  {| decoder_output := 12%Z; encoder_hidden_state := Some 5%Z;
     next_cache_out := Some [(None, None)];
     all_decoder_hidden_states := None; all_decoder_attentions := None;
     all_encoder_hidden_states := None; all_encoder_attentions := None |}.

Definition adapter_out : LMModelOutput unit unit :=
  {| lm_logits := (-72)%Z; cache := T5Cache unit unit (Some [(None, None)]) |}.

End Toy.

(** * Verification *)

Section Claims.

Context `{TchBackend}.
Variable LayerState : Type.
Variable T5Stack : Type.
Variable T5Stack_forward_t :
  T5Stack -> option Tensor -> option Tensor -> option Tensor -> option Tensor ->
  option Tensor -> Embedding -> option (LayerCache LayerState) -> bool ->
  result (T5StackOutput LayerState) RustBertError.
Variable BartLayerState : Type.

(** ** Proof support *)

Ltac is_call t :=
  match t with
  | T5Stack_forward_t _ _ _ _ _ _ _ _ _ => idtac
  | f_linear _ _ _ => idtac
  | f_mul_scalar _ _ => idtac
  end.

Ltac destruct_call :=
  match goal with
  | E : ?t = _ |- context [match ?t with _ => _ end] => is_call t; rewrite E
  | E : ?t = _, H' : context [match ?t with _ => _ end] |- _ =>
      is_call t; rewrite E in H'
  | |- context [match ?t with _ => _ end] => is_call t; destruct t eqn:?
  | _ : context [match ?t with _ => _ end] |- _ => is_call t; destruct t eqn:?
  | o : option Tensor |- context [match ?o with Some _ => _ | None => _ end] =>
      destruct o
  | o : option Tensor, _ : context [match ?o with Some _ => _ | None => _ end] |- _ =>
      destruct o
  end.

Ltac run_model :=
  unfold T5ForConditionalGeneration_forward_t, T5ForConditionalGeneration_encode,
    LMHeadModel_forward_t, T5Model_forward_t, stack_forward_unwrap,
    linear, mul_f64, unwrap, option_unwrap, trace, outcome, bind, ret in *;
  simpl in *; repeat (destruct_call; simpl in *).

Local Abbreviation LayerCache := (LayerCache LayerState).
Local Abbreviation T5Model := (T5Model T5Stack).
Local Abbreviation T5ModelOutput := (T5ModelOutput LayerState).
Local Abbreviation T5ForConditionalGeneration := (T5ForConditionalGeneration T5Stack).
Local Abbreviation Cache := (Cache LayerState BartLayerState).
Local Abbreviation T5Cache := (T5Cache LayerState BartLayerState).
Local Abbreviation Cache_None := (Cache_None LayerState BartLayerState).
Local Abbreviation LMModelOutput := (LMModelOutput LayerState BartLayerState).
Local Abbreviation lm_view := (lm_view LayerState BartLayerState).
Local Abbreviation T5ForConditionalGeneration_new := (T5ForConditionalGeneration_new T5Stack).
Local Abbreviation T5Model_forward_t := (T5Model_forward_t LayerState T5Stack T5Stack_forward_t).
Local Abbreviation T5ForConditionalGeneration_forward_t :=
  (T5ForConditionalGeneration_forward_t LayerState T5Stack T5Stack_forward_t).
Local Abbreviation T5ForConditionalGeneration_encode :=
  (T5ForConditionalGeneration_encode LayerState T5Stack T5Stack_forward_t).
Local Abbreviation LMHeadModel_forward_t :=
  (LMHeadModel_forward_t LayerState T5Stack T5Stack_forward_t BartLayerState).

(** ** Claims *)

(** C1: for every successful call of [T5ForConditionalGeneration::forward_t]
    and of the generation adapter, on a model built by
    [T5ForConditionalGeneration::new], the logits are the base model's decoder
    hidden state [h], passed through [linear(ws, None)] (that is [h · wsᵀ],
    no bias) with the shared embedding weights [ws], then multiplied by
    [(d_model as f64).powf(-0.5)]. *)
Theorem logits_scaling_law (config : T5Config) (base : T5Model)
    (input_ids attention_mask encoder_outputs decoder_input_ids
     decoder_attention_mask input_embeds decoder_input_embeds : option Tensor)
    (old_layer_states : option LayerCache) (train : bool)
    (c : Cache) (token_type_ids position_ids : option Tensor) :
  let self := T5ForConditionalGeneration_new config base in
  let scale := powf (i64_as_f64 config.(d_model)) f64_neg_half in
  (forall out,
    outcome (T5ForConditionalGeneration_forward_t self input_ids attention_mask
      encoder_outputs decoder_input_ids decoder_attention_mask input_embeds
      decoder_input_embeds old_layer_states train) = Done out ->
    exists b l,
      outcome (T5Model_forward_t base input_ids attention_mask encoder_outputs
        decoder_input_ids decoder_attention_mask input_embeds
        decoder_input_embeds old_layer_states train) = Done b /\
      f_linear b.(decoder_output) base.(embeddings).(ws) None = Ok l /\
      f_mul_scalar l scale = Ok out.(decoder_output)) /\
  (forall lo,
    outcome (LMHeadModel_forward_t self input_ids c attention_mask
      token_type_ids position_ids input_embeds encoder_outputs
      decoder_input_ids train) = Done (Ok lo) ->
    exists cls b l,
      outcome (T5Model_forward_t base input_ids attention_mask encoder_outputs
        decoder_input_ids None None None cls train) = Done b /\
      f_linear b.(decoder_output) base.(embeddings).(ws) None = Ok l /\
      f_mul_scalar l scale = Ok lo.(lm_logits)).
Proof.
  intros self scale; split.
  - intros out Hout. subst self scale. run_model;
      try discriminate; inversion Hout; subst; simpl; eauto 6.
  - intros lo Hlo. subst self scale.
    destruct c as [g|bc|cls|];
      [run_model; discriminate .. | exists cls | exists None];
      run_model; try discriminate; inversion Hlo; subst; simpl; eauto 6.
Qed.

(** C6: [T5ForConditionalGeneration::forward_t] only replaces
    [decoder_output]: on success, every other field of its output is the
    corresponding field of the base model's output on the same inputs. *)
Theorem head_fields_pass_through (self : T5ForConditionalGeneration)
    (input_ids attention_mask encoder_outputs decoder_input_ids
     decoder_attention_mask input_embeds decoder_input_embeds : option Tensor)
    (old_layer_states : option LayerCache) (train : bool) (out : T5ModelOutput) :
  outcome (T5ForConditionalGeneration_forward_t self input_ids attention_mask
    encoder_outputs decoder_input_ids decoder_attention_mask input_embeds
    decoder_input_embeds old_layer_states train) = Done out ->
  exists b,
    outcome (T5Model_forward_t self.(base_model) input_ids attention_mask
      encoder_outputs decoder_input_ids decoder_attention_mask input_embeds
      decoder_input_embeds old_layer_states train) = Done b /\
    out.(encoder_hidden_state) = b.(encoder_hidden_state) /\
    out.(next_cache_out) = b.(next_cache_out) /\
    out.(all_decoder_hidden_states) = b.(all_decoder_hidden_states) /\
    out.(all_decoder_attentions) = b.(all_decoder_attentions) /\
    out.(all_encoder_hidden_states) = b.(all_encoder_hidden_states) /\
    out.(all_encoder_attentions) = b.(all_encoder_attentions).
Proof.
  intros Hout. run_model; try discriminate; inversion Hout; subst; simpl;
    eexists; repeat split; reflexivity.
Qed.

(** C7: [token_type_ids], [position_ids] and [input_embeds] are unused by the
    generation adapter: calls differing only in them return the same result
    (same tensor computations, same outcome). *)
Theorem adapter_ignores_unused_args (self : T5ForConditionalGeneration)
    (input_ids : option Tensor) (c : Cache) (attention_mask : option Tensor)
    (tt1 pi1 ie1 tt2 pi2 ie2 : option Tensor)
    (encoder_outputs decoder_input_ids : option Tensor) (train : bool) :
  LMHeadModel_forward_t self input_ids c attention_mask tt1 pi1 ie1
    encoder_outputs decoder_input_ids train =
  LMHeadModel_forward_t self input_ids c attention_mask tt2 pi2 ie2
    encoder_outputs decoder_input_ids train.
Proof. reflexivity. Qed.

(** C9: in [T5Model::forward_t] the [calc_hidden_states.as_ref().unwrap()]
    fallback never panics: every call either returns an output or panics on
    the [unwrap] of a failing stack call, never on an [Option::unwrap] of
    [None]. *)
Theorem encoder_output_unwrap_never_panics (self : T5Model)
    (input_ids attention_mask encoder_outputs decoder_input_ids
     decoder_attention_mask input_embeds decoder_input_embeds : option Tensor)
    (old_layer_states : option LayerCache) (train : bool) :
  let run := T5Model_forward_t self input_ids attention_mask encoder_outputs
               decoder_input_ids decoder_attention_mask input_embeds
               decoder_input_embeds old_layer_states train in
  (exists out, outcome run = Done out) \/
  (exists e, outcome run = Panicked (UnwrapErr e)).
Proof. run_model; eauto. Qed.

(** C10: for the generation adapter, [Cache::T5Cache(None)] and [Cache::None]
    are indistinguishable: the two calls return the same result. *)
Theorem adapter_empty_t5cache_is_none (self : T5ForConditionalGeneration)
    (input_ids : option Tensor) (attention_mask token_type_ids position_ids
     input_embeds encoder_outputs decoder_input_ids : option Tensor) (train : bool) :
  LMHeadModel_forward_t self input_ids (T5Cache None) attention_mask
    token_type_ids position_ids input_embeds encoder_outputs decoder_input_ids train =
  LMHeadModel_forward_t self input_ids Cache_None attention_mask
    token_type_ids position_ids input_embeds encoder_outputs decoder_input_ids train.
Proof. reflexivity. Qed.

(** The adapter on an accepted cache is [T5ForConditionalGeneration::forward_t]
    on the cache's layer states, without decoder mask or embeddings. *)
Lemma adapter_runs_head (self : T5ForConditionalGeneration)
    (input_ids : option Tensor) (cls : option LayerCache)
    (attention_mask token_type_ids position_ids input_embeds encoder_outputs
     decoder_input_ids : option Tensor) (train : bool) :
  let h := T5ForConditionalGeneration_forward_t self input_ids attention_mask
             encoder_outputs decoder_input_ids None None None cls train in
  LMHeadModel_forward_t self input_ids (T5Cache cls) attention_mask
    token_type_ids position_ids input_embeds encoder_outputs decoder_input_ids train
  = (trace h, exec_map lm_view (outcome h)) /\
  LMHeadModel_forward_t self input_ids Cache_None attention_mask
    token_type_ids position_ids input_embeds encoder_outputs decoder_input_ids train
  = (let h0 := T5ForConditionalGeneration_forward_t self input_ids attention_mask
                 encoder_outputs decoder_input_ids None None None None train in
     (trace h0, exec_map lm_view (outcome h0))).
Proof. simpl; split; run_model; reflexivity. Qed.

(** C2: the generation adapter dispatches on the cache variant:
    [Cache::T5Cache(states)] runs the model with [states] as the decoder's
    incoming cache, [Cache::None] with no cache, and any other variant returns
    [Err(ValueError("Cache not compatible with T5 Model"))] with an empty
    trace, i.e. before any tensor computation. *)
Theorem adapter_cache_dispatch (self : T5ForConditionalGeneration)
    (input_ids attention_mask token_type_ids position_ids input_embeds
     encoder_outputs decoder_input_ids : option Tensor) (train : bool) :
  (forall cls,
    let h := T5ForConditionalGeneration_forward_t self input_ids attention_mask
               encoder_outputs decoder_input_ids None None None cls train in
    LMHeadModel_forward_t self input_ids (T5Cache cls) attention_mask
      token_type_ids position_ids input_embeds encoder_outputs decoder_input_ids train
    = (trace h, exec_map lm_view (outcome h))) /\
  (let h := T5ForConditionalGeneration_forward_t self input_ids attention_mask
              encoder_outputs decoder_input_ids None None None None train in
   LMHeadModel_forward_t self input_ids Cache_None attention_mask
     token_type_ids position_ids input_embeds encoder_outputs decoder_input_ids train
   = (trace h, exec_map lm_view (outcome h))) /\
  (forall c, (forall cls, c <> T5Cache cls) -> c <> Cache_None ->
    LMHeadModel_forward_t self input_ids c attention_mask
      token_type_ids position_ids input_embeds encoder_outputs decoder_input_ids train
    = ([], Done (Err (ValueError "Cache not compatible with T5 Model")))).
Proof.
  split; [|split].
  - intros cls. apply adapter_runs_head.
  - apply (adapter_runs_head self input_ids None).
  - intros c Hc Hn. destruct c as [g|bc|cls|].
    + reflexivity.
    + reflexivity.
    + exfalso; exact (Hc cls eq_refl).
    + exfalso; exact (Hn eq_refl).
Qed.

(** C3: [encoder_hidden_state] is [None] exactly when [encoder_outputs] was
    supplied; without it the encoder stack runs exactly once (with it, never)
    and its hidden state is the one returned. *)
Theorem encoder_hidden_state_iff_computed (self : T5Model)
    (input_ids attention_mask encoder_outputs decoder_input_ids
     decoder_attention_mask input_embeds decoder_input_embeds : option Tensor)
    (old_layer_states : option LayerCache) (train : bool) :
  let run := T5Model_forward_t self input_ids attention_mask encoder_outputs
               decoder_input_ids decoder_attention_mask input_embeds
               decoder_input_embeds old_layer_states train in
  (forall out, outcome run = Done out ->
     (out.(encoder_hidden_state) = None <-> encoder_outputs <> None)) /\
  count_event EncoderForward (trace run) =
    match encoder_outputs with Some _ => 0%nat | None => 1%nat end /\
  (encoder_outputs = None -> forall out, outcome run = Done out ->
     exists so,
       T5Stack_forward_t self.(encoder) input_ids attention_mask None None
         input_embeds self.(embeddings) None train = Ok so /\
       out.(encoder_hidden_state) = Some so.(hidden_state)).
Proof.
  intros run; subst run; split; [|split].
  - intros out Hout; run_model; try discriminate; inversion Hout; subst; simpl;
      split; congruence.
  - run_model; reflexivity.
  - intros Heo out Hout; subst encoder_outputs; run_model; try discriminate;
      inversion Hout; subst; simpl; eauto.
Qed.

(** C4: with training off, precomputing the encoder output with [encode] and
    passing it as [encoder_outputs] gives the same decoder output (and the
    same panics) as one end-to-end call, for the base model and for the
    conditional-generation head; the source inputs of the second call are
    irrelevant. *)
Theorem encode_reuse_lossless (self : T5ForConditionalGeneration)
    (input_ids : Tensor) (attention_mask : option Tensor)
    (input_ids' input_embeds' decoder_input_ids decoder_attention_mask
     decoder_input_embeds : option Tensor) (old_layer_states : option LayerCache) :
  exec_map decoder_output (outcome (
    e <- T5ForConditionalGeneration_encode self input_ids attention_mask ;;
    T5Model_forward_t self.(base_model) input_ids' attention_mask (Some e)
      decoder_input_ids decoder_attention_mask input_embeds' decoder_input_embeds
      old_layer_states false)) =
  exec_map decoder_output (outcome (
    T5Model_forward_t self.(base_model) (Some input_ids) attention_mask None
      decoder_input_ids decoder_attention_mask None decoder_input_embeds
      old_layer_states false)) /\
  exec_map decoder_output (outcome (
    e <- T5ForConditionalGeneration_encode self input_ids attention_mask ;;
    T5ForConditionalGeneration_forward_t self input_ids' attention_mask (Some e)
      decoder_input_ids decoder_attention_mask input_embeds' decoder_input_embeds
      old_layer_states false)) =
  exec_map decoder_output (outcome (
    T5ForConditionalGeneration_forward_t self (Some input_ids) attention_mask None
      decoder_input_ids decoder_attention_mask None decoder_input_embeds
      old_layer_states false)).
Proof. split; run_model; reflexivity. Qed.

(** C5: on success the adapter returns [Cache::T5Cache] of exactly the next
    cache produced by the base model in this call, for both accepted cache
    variants. *)
Theorem adapter_returns_next_cache (self : T5ForConditionalGeneration)
    (input_ids : option Tensor) (c : Cache)
    (attention_mask token_type_ids position_ids input_embeds encoder_outputs
     decoder_input_ids : option Tensor) (train : bool) (lo : LMModelOutput) :
  outcome (LMHeadModel_forward_t self input_ids c attention_mask
    token_type_ids position_ids input_embeds encoder_outputs decoder_input_ids
    train) = Done (Ok lo) ->
  exists cls b,
    (c = T5Cache cls \/ (c = Cache_None /\ cls = None)) /\
    outcome (T5Model_forward_t self.(base_model) input_ids attention_mask
      encoder_outputs decoder_input_ids None None None cls train) = Done b /\
    lo.(cache) = T5Cache b.(next_cache_out).
Proof.
  intros Hlo. destruct c as [g|bc|cls|];
    [run_model; discriminate .. | exists cls | exists None];
    run_model; try discriminate; inversion Hlo; subst; simpl; eauto 6.
Qed.

(** A failure of either stack call is the panic of [T5Model::forward_t]. *)
Lemma base_propagates_stack_errors (self : T5Model)
    (input_ids attention_mask encoder_outputs decoder_input_ids
     decoder_attention_mask input_embeds decoder_input_embeds : option Tensor)
    (old_layer_states : option LayerCache) (train : bool) (e : RustBertError) :
  ((encoder_outputs = None /\
    T5Stack_forward_t self.(encoder) input_ids attention_mask None None
      input_embeds self.(embeddings) None train = Err e) \/
   (exists enc,
     (encoder_outputs = Some enc \/
      (encoder_outputs = None /\ exists so,
         T5Stack_forward_t self.(encoder) input_ids attention_mask None None
           input_embeds self.(embeddings) None train = Ok so /\
         so.(hidden_state) = enc)) /\
     T5Stack_forward_t self.(decoder) decoder_input_ids decoder_attention_mask
       (Some enc) attention_mask decoder_input_embeds self.(embeddings)
       old_layer_states train = Err e)) ->
  outcome (T5Model_forward_t self input_ids attention_mask encoder_outputs
    decoder_input_ids decoder_attention_mask input_embeds decoder_input_embeds
    old_layer_states train) = Panicked (UnwrapErr e).
Proof.
  intros [[Heo Henc] | [enc [[Heo | [Heo [so [Henc Hso]]]] Hdec]]]; subst;
    run_model; try rewrite Henc in *; try rewrite Hdec in *; simpl in *;
    congruence.
Qed.

(** No check precedes the stack calls, and neither stack runs twice. *)
Lemma base_calls_stack_first (self : T5Model)
    (input_ids attention_mask encoder_outputs decoder_input_ids
     decoder_attention_mask input_embeds decoder_input_embeds : option Tensor)
    (old_layer_states : option LayerCache) (train : bool) :
  let run := T5Model_forward_t self input_ids attention_mask encoder_outputs
               decoder_input_ids decoder_attention_mask input_embeds
               decoder_input_embeds old_layer_states train in
  hd_error (trace run) =
    Some match encoder_outputs with
         | Some _ => DecoderForward
         | None => EncoderForward
         end /\
  (count_event EncoderForward (trace run) <= 1)%nat /\
  (count_event DecoderForward (trace run) <= 1)%nat.
Proof. run_model; repeat split; auto. Qed.

(** A panic of the base model is the panic of the head and of the adapter. *)
Lemma panics_propagate_to_heads (self : T5ForConditionalGeneration)
    (input_ids attention_mask encoder_outputs decoder_input_ids
     decoder_attention_mask input_embeds decoder_input_embeds : option Tensor)
    (old_layer_states : option LayerCache) (train : bool) (p : Panic) :
  outcome (T5Model_forward_t self.(base_model) input_ids attention_mask
    encoder_outputs decoder_input_ids decoder_attention_mask input_embeds
    decoder_input_embeds old_layer_states train) = Panicked p ->
  outcome (T5ForConditionalGeneration_forward_t self input_ids attention_mask
    encoder_outputs decoder_input_ids decoder_attention_mask input_embeds
    decoder_input_embeds old_layer_states train) = Panicked p.
Proof.
  intros Hp. unfold T5ForConditionalGeneration_forward_t, outcome, bind in *.
  destruct (T5Model_forward_t _ _ _ _ _ _ _ _ _ _) as [tr [b|p']];
    simpl in *; congruence.
Qed.

(** C8: every failure of the encoder or decoder stack call, also the one for
    missing inputs (no [input_ids] and no [input_embeds]), reaches the caller
    of [T5Model::forward_t], of [T5ForConditionalGeneration::forward_t] and of
    the generation adapter as a panic carrying that error, with no output;
    nothing is checked before the first stack call and no stack runs twice. *)
Theorem stack_failures_propagate (self : T5ForConditionalGeneration)
    (input_ids attention_mask encoder_outputs decoder_input_ids
     decoder_attention_mask input_embeds decoder_input_embeds : option Tensor)
    (old_layer_states : option LayerCache) (train : bool) (e : RustBertError)
    (c : Cache) (token_type_ids position_ids adapter_input_embeds : option Tensor) :
  let base := self.(base_model) in
  let stack_error dam ie die ols :=
    (encoder_outputs = None /\
     T5Stack_forward_t base.(encoder) input_ids attention_mask None None
       ie base.(embeddings) None train = Err e) \/
    (exists enc,
      (encoder_outputs = Some enc \/
       (encoder_outputs = None /\ exists so,
          T5Stack_forward_t base.(encoder) input_ids attention_mask None None
            ie base.(embeddings) None train = Ok so /\
          so.(hidden_state) = enc)) /\
      T5Stack_forward_t base.(decoder) decoder_input_ids dam (Some enc)
        attention_mask die base.(embeddings) ols train = Err e) in
  let run := T5Model_forward_t base input_ids attention_mask encoder_outputs
               decoder_input_ids decoder_attention_mask input_embeds
               decoder_input_embeds old_layer_states train in
  (stack_error decoder_attention_mask input_embeds decoder_input_embeds
     old_layer_states ->
   outcome run = Panicked (UnwrapErr e) /\
   outcome (T5ForConditionalGeneration_forward_t self input_ids attention_mask
     encoder_outputs decoder_input_ids decoder_attention_mask input_embeds
     decoder_input_embeds old_layer_states train) = Panicked (UnwrapErr e)) /\
  (forall cls, (c = T5Cache cls \/ (c = Cache_None /\ cls = None)) ->
   stack_error None None None cls ->
   outcome (LMHeadModel_forward_t self input_ids c attention_mask
     token_type_ids position_ids adapter_input_embeds encoder_outputs
     decoder_input_ids train) = Panicked (UnwrapErr e)) /\
  hd_error (trace run) =
    Some match encoder_outputs with
         | Some _ => DecoderForward
         | None => EncoderForward
         end /\
  (count_event EncoderForward (trace run) <= 1)%nat /\
  (count_event DecoderForward (trace run) <= 1)%nat.
Proof.
  intros base stack_error run.
  destruct (base_calls_stack_first base input_ids attention_mask encoder_outputs
              decoder_input_ids decoder_attention_mask input_embeds
              decoder_input_embeds old_layer_states train) as [Hhd [Hc1 Hc2]].
  split; [|split; [|auto]].
  - intros Herr.
    assert (Hb := base_propagates_stack_errors base input_ids attention_mask
                    encoder_outputs decoder_input_ids decoder_attention_mask
                    input_embeds decoder_input_embeds old_layer_states train e Herr).
    split; [exact Hb | apply panics_propagate_to_heads; exact Hb].
  - intros cls Hcls Herr.
    assert (Hb := base_propagates_stack_errors base input_ids attention_mask
                    encoder_outputs decoder_input_ids None None None cls train e Herr).
    assert (Hh := panics_propagate_to_heads self input_ids attention_mask
                    encoder_outputs decoder_input_ids None None None cls train _ Hb).
    destruct Hcls as [Hc | [Hc Hn]]; subst c; [|subst cls];
      [destruct (adapter_runs_head self input_ids cls attention_mask token_type_ids
                   position_ids adapter_input_embeds encoder_outputs
                   decoder_input_ids train) as [Ha _]
      |destruct (adapter_runs_head self input_ids None attention_mask token_type_ids
                   position_ids adapter_input_embeds encoder_outputs
                   decoder_input_ids train) as [_ Ha]];
      unfold outcome in *; rewrite Ha; cbn [snd]; rewrite Hh; reflexivity.
Qed.

(** ** Further properties of the code *)

(** With [encoder_outputs] supplied, [input_ids] and [input_embeds] are never
    read: the base model and the head return the same result for any of them. *)
Theorem encoder_inputs_ignored_with_encoder_outputs (self : T5ForConditionalGeneration)
    (e : Tensor) (input_ids1 input_ids2 input_embeds1 input_embeds2 : option Tensor)
    (attention_mask decoder_input_ids decoder_attention_mask
     decoder_input_embeds : option Tensor)
    (old_layer_states : option LayerCache) (train : bool) :
  T5Model_forward_t self.(base_model) input_ids1 attention_mask (Some e)
    decoder_input_ids decoder_attention_mask input_embeds1 decoder_input_embeds
    old_layer_states train =
  T5Model_forward_t self.(base_model) input_ids2 attention_mask (Some e)
    decoder_input_ids decoder_attention_mask input_embeds2 decoder_input_embeds
    old_layer_states train /\
  T5ForConditionalGeneration_forward_t self input_ids1 attention_mask (Some e)
    decoder_input_ids decoder_attention_mask input_embeds1 decoder_input_embeds
    old_layer_states train =
  T5ForConditionalGeneration_forward_t self input_ids2 attention_mask (Some e)
    decoder_input_ids decoder_attention_mask input_embeds2 decoder_input_embeds
    old_layer_states train.
Proof. split; reflexivity. Qed.

(** The encoder diagnostics of a successful base-model call are absent when
    [encoder_outputs] was supplied, and are the encoder stack's own
    [all_hidden_states] / [all_attentions] when it was computed. *)
Theorem encoder_diagnostics_follow_encoder_run (self : T5Model)
    (input_ids attention_mask encoder_outputs decoder_input_ids
     decoder_attention_mask input_embeds decoder_input_embeds : option Tensor)
    (old_layer_states : option LayerCache) (train : bool) (out : T5ModelOutput)
    (Hout : outcome (T5Model_forward_t self input_ids attention_mask
              encoder_outputs decoder_input_ids decoder_attention_mask
              input_embeds decoder_input_embeds old_layer_states train) = Done out) :
  match encoder_outputs with
  | Some _ =>
      out.(all_encoder_hidden_states) = None /\ out.(all_encoder_attentions) = None
  | None =>
      exists so,
        T5Stack_forward_t self.(encoder) input_ids attention_mask None None
          input_embeds self.(embeddings) None train = Ok so /\
        out.(all_encoder_hidden_states) = so.(all_hidden_states) /\
        out.(all_encoder_attentions) = so.(all_attentions)
  end.
Proof. run_model; try discriminate; inversion Hout; subst; simpl; eauto. Qed.

(** A successful base-model call reports what the decoder stack returned when
    run on the effective encoder output (the supplied one, else the encoder's
    hidden state) with the source [attention_mask] as its cross-attention mask
    and the incoming cache [old_layer_states]. *)
Theorem decoder_runs_on_effective_encoder_output (self : T5Model)
    (input_ids attention_mask encoder_outputs decoder_input_ids
     decoder_attention_mask input_embeds decoder_input_embeds : option Tensor)
    (old_layer_states : option LayerCache) (train : bool) (out : T5ModelOutput)
    (Hout : outcome (T5Model_forward_t self input_ids attention_mask
              encoder_outputs decoder_input_ids decoder_attention_mask
              input_embeds decoder_input_embeds old_layer_states train) = Done out) :
  exists enc dec,
    (encoder_outputs = Some enc \/
     (encoder_outputs = None /\ exists so,
        T5Stack_forward_t self.(encoder) input_ids attention_mask None None
          input_embeds self.(embeddings) None train = Ok so /\
        so.(hidden_state) = enc)) /\
    T5Stack_forward_t self.(decoder) decoder_input_ids decoder_attention_mask
      (Some enc) attention_mask decoder_input_embeds self.(embeddings)
      old_layer_states train = Ok dec /\
    out.(decoder_output) = dec.(hidden_state) /\
    out.(next_cache_out) = dec.(next_cache) /\
    out.(all_decoder_hidden_states) = dec.(all_hidden_states) /\
    out.(all_decoder_attentions) = dec.(all_attentions).
Proof.
  run_model; try discriminate; inversion Hout; subst; simpl;
    do 2 eexists; split; eauto 7; repeat split; eauto.
Qed.

(** The incoming decoder cache never reaches the encoder: two successful calls
    that differ only in [old_layer_states] report the same encoder hidden
    state and encoder diagnostics. *)
Theorem decoder_cache_does_not_affect_encoder (self : T5Model)
    (input_ids attention_mask encoder_outputs decoder_input_ids
     decoder_attention_mask input_embeds decoder_input_embeds : option Tensor)
    (ols1 ols2 : option LayerCache) (train : bool) (out1 out2 : T5ModelOutput)
    (H1 : outcome (T5Model_forward_t self input_ids attention_mask
            encoder_outputs decoder_input_ids decoder_attention_mask
            input_embeds decoder_input_embeds ols1 train) = Done out1)
    (H2 : outcome (T5Model_forward_t self input_ids attention_mask
            encoder_outputs decoder_input_ids decoder_attention_mask
            input_embeds decoder_input_embeds ols2 train) = Done out2) :
  out1.(encoder_hidden_state) = out2.(encoder_hidden_state) /\
  out1.(all_encoder_hidden_states) = out2.(all_encoder_hidden_states) /\
  out1.(all_encoder_attentions) = out2.(all_encoder_attentions).
Proof.
  run_model; try discriminate; inversion H1; inversion H2; subst; simpl; auto.
Qed.

(** [encode] computes the encoder hidden state that an inference-mode
    forward call on the same tokens reports: when that call succeeds, [encode]
    runs the encoder once and returns its [encoder_hidden_state]. *)
Theorem encode_matches_forward_encoder_state (self : T5ForConditionalGeneration)
    (input_ids : Tensor) (attention_mask decoder_input_ids decoder_attention_mask
     decoder_input_embeds : option Tensor) (old_layer_states : option LayerCache)
    (out : T5ModelOutput)
    (Hout : outcome (T5ForConditionalGeneration_forward_t self (Some input_ids)
              attention_mask None decoder_input_ids decoder_attention_mask None
              decoder_input_embeds old_layer_states false) = Done out) :
  exists e,
    T5ForConditionalGeneration_encode self input_ids attention_mask =
      ([EncoderForward], Done e) /\
    out.(encoder_hidden_state) = Some e.
Proof. run_model; try discriminate; inversion Hout; subst; simpl; eauto. Qed.

(** A successful base-model call runs exactly the encoder then the decoder
    when it computes the encoder output, and only the decoder otherwise. *)
Theorem base_success_trace (self : T5Model)
    (input_ids attention_mask encoder_outputs decoder_input_ids
     decoder_attention_mask input_embeds decoder_input_embeds : option Tensor)
    (old_layer_states : option LayerCache) (train : bool) (out : T5ModelOutput)
    (Hout : outcome (T5Model_forward_t self input_ids attention_mask
              encoder_outputs decoder_input_ids decoder_attention_mask
              input_embeds decoder_input_embeds old_layer_states train) = Done out) :
  trace (T5Model_forward_t self input_ids attention_mask encoder_outputs
    decoder_input_ids decoder_attention_mask input_embeds decoder_input_embeds
    old_layer_states train) =
  match encoder_outputs with
  | None => [EncoderForward; DecoderForward]
  | Some _ => [DecoderForward]
  end.
Proof. run_model; try discriminate; reflexivity. Qed.

(** The head runs one projection and one scaling after a successful base
    call and nothing after a failed one: a failed base call is the head's
    whole trace and panic, a successful head call's trace is the base trace
    followed by [Linear; MulScalar], and any other panic of the head is a
    failing tch operation. *)
Theorem head_trace_extends_base (self : T5ForConditionalGeneration)
    (input_ids attention_mask encoder_outputs decoder_input_ids
     decoder_attention_mask input_embeds decoder_input_embeds : option Tensor)
    (old_layer_states : option LayerCache) (train : bool) :
  let b := T5Model_forward_t self.(base_model) input_ids attention_mask
             encoder_outputs decoder_input_ids decoder_attention_mask input_embeds
             decoder_input_embeds old_layer_states train in
  let h := T5ForConditionalGeneration_forward_t self input_ids attention_mask
             encoder_outputs decoder_input_ids decoder_attention_mask input_embeds
             decoder_input_embeds old_layer_states train in
  (forall p, outcome b = Panicked p -> h = (trace b, Panicked p)) /\
  (forall out, outcome h = Done out ->
     trace h = (trace b ++ [Linear; MulScalar])%list) /\
  (forall p, outcome h = Panicked p ->
     outcome b = Panicked p \/ exists msg, p = TchPanic msg).
Proof.
  intros b h; subst b h; split; [|split].
  - intros p Hp; run_model; congruence.
  - intros out Hout; run_model; try discriminate; reflexivity.
  - intros p Hp; run_model; try discriminate; inversion Hp; subst; eauto.
Qed.


(** Cache chaining across decode steps: the cache returned by a successful
    adapter call is a [T5Cache], so handing it back on the next step is always
    accepted, and that step runs the head with the previous step's next cache
    as the decoder's incoming layer states. *)
Theorem adapter_cache_chains (self : T5ForConditionalGeneration)
    (input_ids : option Tensor) (c : Cache)
    (attention_mask token_type_ids position_ids input_embeds encoder_outputs
     decoder_input_ids : option Tensor) (train : bool) (lo : LMModelOutput)
    (Hlo : outcome (LMHeadModel_forward_t self input_ids c attention_mask
             token_type_ids position_ids input_embeds encoder_outputs
             decoder_input_ids train) = Done (Ok lo)) :
  exists nc, lo.(cache) = T5Cache nc /\
  forall input_ids' attention_mask' tt' pi' ie' encoder_outputs'
         decoder_input_ids' train',
    let h := T5ForConditionalGeneration_forward_t self input_ids' attention_mask'
               encoder_outputs' decoder_input_ids' None None None nc train' in
    LMHeadModel_forward_t self input_ids' lo.(cache) attention_mask' tt' pi' ie'
      encoder_outputs' decoder_input_ids' train' =
    (trace h, exec_map lm_view (outcome h)) /\
    (forall e, outcome (LMHeadModel_forward_t self input_ids' lo.(cache)
       attention_mask' tt' pi' ie' encoder_outputs' decoder_input_ids' train')
       <> Done (Err e)).
Proof.
  assert (Hnc : exists nc, lo.(cache) = T5Cache nc).
  { destruct c as [g|bc|cls|]; run_model; try discriminate;
      inversion Hlo; subst; simpl; eauto. }
  destruct Hnc as [nc Hc].
  exists nc; split; [exact Hc |].
  intros; rewrite Hc.
  destruct (adapter_runs_head self input_ids' nc attention_mask'
              tt' pi' ie' encoder_outputs' decoder_input_ids' train') as [Ha _].
  split; [exact Ha |].
  intros e; rewrite Ha; unfold outcome, exec_map, lm_view; simpl.
  destruct (snd _); discriminate.
Qed.

End Claims.

(** * Witnesses on the toy instance *)

Import Toy.

(** C6 at source [5], target [7]: the head succeeds with [head_out]. *)
Lemma head_fields_pass_through_witness :
  outcome (@T5ForConditionalGeneration_forward_t backend unit bool stack_forward model
    (Some 5%Z) None None (Some 7%Z) None None None None false) = Done head_out /\
  exists b,
    outcome (@T5Model_forward_t backend unit bool stack_forward base
      (Some 5%Z) None None (Some 7%Z) None None None None false) = Done b /\
    head_out.(encoder_hidden_state) = b.(encoder_hidden_state) /\
    head_out.(next_cache_out) = b.(next_cache_out) /\
    head_out.(all_decoder_hidden_states) = b.(all_decoder_hidden_states) /\
    head_out.(all_decoder_attentions) = b.(all_decoder_attentions) /\
    head_out.(all_encoder_hidden_states) = b.(all_encoder_hidden_states) /\
    head_out.(all_encoder_attentions) = b.(all_encoder_attentions).
Proof.
  split; [reflexivity |].
  apply (@head_fields_pass_through backend unit bool stack_forward model
           (Some 5%Z) None None (Some 7%Z) None None None None false head_out).
  reflexivity.
Defined.

(** C5 at source [5], target [7], cache [T5Cache(None)]: the adapter
    succeeds with [adapter_out]. *)
Lemma adapter_returns_next_cache_witness :
  outcome (@LMHeadModel_forward_t backend unit bool stack_forward unit model
    (Some 5%Z) (T5Cache unit unit None) None None None None None (Some 7%Z)
    false) = Done (Ok adapter_out) /\
  exists cls b,
    (T5Cache unit unit None = T5Cache unit unit cls \/
     (T5Cache unit unit None = Cache_None unit unit /\ cls = None)) /\
    outcome (@T5Model_forward_t backend unit bool stack_forward base
      (Some 5%Z) None None (Some 7%Z) None None None cls false) = Done b /\
    adapter_out.(cache) = T5Cache unit unit b.(next_cache_out).
Proof.
  split; [reflexivity |].
  apply (@adapter_returns_next_cache backend unit bool stack_forward unit model
           (Some 5%Z) (T5Cache unit unit None) None None None None None
           (Some 7%Z) false adapter_out).
  reflexivity.
Defined.

(** Witnesses of the further properties, on source [5] and target [7]. *)

Lemma encoder_diagnostics_follow_encoder_run_witness :
  outcome (@T5Model_forward_t backend unit bool stack_forward base
    (Some 5%Z) None None (Some 7%Z) None None None None false) = Done base_out /\
  exists so,
    stack_forward false (Some 5%Z) None None None None {| ws := 2%Z |} None false
      = Ok so /\
    base_out.(all_encoder_hidden_states) = so.(all_hidden_states) /\
    base_out.(all_encoder_attentions) = so.(all_attentions).
Proof.
  split; [reflexivity |].
  apply (@encoder_diagnostics_follow_encoder_run backend unit bool stack_forward
           base (Some 5%Z) None None (Some 7%Z) None None None None false
           base_out).
  reflexivity.
Defined.

Lemma decoder_runs_on_effective_encoder_output_witness :
  outcome (@T5Model_forward_t backend unit bool stack_forward base
    (Some 5%Z) None None (Some 7%Z) None None None None false) = Done base_out /\
  exists enc dec,
    (@None Z = Some enc \/
     (@None Z = None /\ exists so,
        stack_forward false (Some 5%Z) None None None None {| ws := 2%Z |} None
          false = Ok so /\
        so.(hidden_state) = enc)) /\
    stack_forward true (Some 7%Z) None (Some enc) None None {| ws := 2%Z |} None
      false = Ok dec /\
    base_out.(decoder_output) = dec.(hidden_state) /\
    base_out.(next_cache_out) = dec.(next_cache) /\
    base_out.(all_decoder_hidden_states) = dec.(all_hidden_states) /\
    base_out.(all_decoder_attentions) = dec.(all_attentions).
Proof.
  split; [reflexivity |].
  apply (@decoder_runs_on_effective_encoder_output backend unit bool
           stack_forward base (Some 5%Z) None None (Some 7%Z) None None None None
           false base_out).
  reflexivity.
Defined.

Lemma decoder_cache_does_not_affect_encoder_witness :
  outcome (@T5Model_forward_t backend unit bool stack_forward base
    (Some 5%Z) None None (Some 7%Z) None None None None false) = Done base_out /\
  outcome (@T5Model_forward_t backend unit bool stack_forward base
    (Some 5%Z) None None (Some 7%Z) None None None (Some [(None, None)]) false)
    = Done base_out /\
  base_out.(encoder_hidden_state) = base_out.(encoder_hidden_state) /\
  base_out.(all_encoder_hidden_states) = base_out.(all_encoder_hidden_states) /\
  base_out.(all_encoder_attentions) = base_out.(all_encoder_attentions).
Proof.
  split; [reflexivity | split; [reflexivity |]].
  apply (@decoder_cache_does_not_affect_encoder backend unit bool stack_forward
           base (Some 5%Z) None None (Some 7%Z) None None None None
           (Some [(None, None)]) false base_out base_out); reflexivity.
Defined.

Lemma encode_matches_forward_encoder_state_witness :
  outcome (@T5ForConditionalGeneration_forward_t backend unit bool stack_forward
    model (Some 5%Z) None None (Some 7%Z) None None None None false)
    = Done head_out /\
  exists e,
    @T5ForConditionalGeneration_encode backend unit bool stack_forward model
      5%Z None = ([EncoderForward], Done e) /\
    head_out.(encoder_hidden_state) = Some e.
Proof.
  split; [reflexivity |].
  apply (@encode_matches_forward_encoder_state backend unit bool stack_forward
           model 5%Z None (Some 7%Z) None None None head_out).
  reflexivity.
Defined.

Lemma base_success_trace_witness :
  outcome (@T5Model_forward_t backend unit bool stack_forward base
    (Some 5%Z) None None (Some 7%Z) None None None None false) = Done base_out /\
  trace (@T5Model_forward_t backend unit bool stack_forward base
    (Some 5%Z) None None (Some 7%Z) None None None None false)
    = [EncoderForward; DecoderForward].
Proof.
  split; [reflexivity |].
  apply (@base_success_trace backend unit bool stack_forward base (Some 5%Z)
           None None (Some 7%Z) None None None None false base_out).
  reflexivity.
Defined.


Lemma adapter_cache_chains_witness :
  outcome (@LMHeadModel_forward_t backend unit bool stack_forward unit model
    (Some 5%Z) (Cache_None unit unit) None None None None None (Some 7%Z)
    false) = Done (Ok adapter_out) /\
  exists nc, adapter_out.(cache) = T5Cache unit unit nc /\
  forall input_ids' attention_mask' tt' pi' ie' encoder_outputs'
         decoder_input_ids' train',
    let h := @T5ForConditionalGeneration_forward_t backend unit bool stack_forward
               model input_ids' attention_mask' encoder_outputs'
               decoder_input_ids' None None None nc train' in
    @LMHeadModel_forward_t backend unit bool stack_forward unit model input_ids'
      adapter_out.(cache) attention_mask' tt' pi' ie' encoder_outputs'
      decoder_input_ids' train' =
    (trace h, exec_map (lm_view unit unit) (outcome h)) /\
    (forall e, outcome (@LMHeadModel_forward_t backend unit bool stack_forward
       unit model input_ids' adapter_out.(cache) attention_mask' tt' pi' ie'
       encoder_outputs' decoder_input_ids' train') <> Done (Err e)).
Proof.
  split; [reflexivity |].
  apply (@adapter_cache_chains backend unit bool stack_forward unit model
           (Some 5%Z) (Cache_None unit unit) None None None None None (Some 7%Z)
           false adapter_out).
  reflexivity.
Defined.
